(** * lazy_tensors::Literal -- constructor, shape accessor and hash

    A shallow embedding of [lazy_tensor_core/lazy_tensors/literal.cc].

    The three member functions of [Literal] run in a small monad over a
    machine state that holds the receiver object ([*this]), the log of the
    calls made to the external collaborators ([ShapeUtil::Hash], [at::empty])
    and of failed [CHECK]s, and the contents of the memory the allocator
    hands out.  A failed [CHECK] aborts the program: the computation stops
    in the machine state reached so far. *)

From Stdlib Require Import ZArith NArith List Bool Lia.
From ExtLib Require Import Structures.Monad.
Import ListNotations.
Import MonadNotation.
Local Open Scope monad_scope.
Local Open Scope Z_scope.

Set Implicit Arguments.

(** ** Machine integers *)

(** [int64_t]: a 64-bit two's complement integer, carried by [Z]. *)
Definition int64_t := Z.
Definition int64_max : Z := 2 ^ 63 - 1.
Definition int64_min : Z := - 2 ^ 63.

(** Conversion of an integer to [int64_t], with wrap-around. *)
Definition to_int64 (z : Z) : int64_t := (z + 2 ^ 63) mod 2 ^ 64 - 2 ^ 63.

(** [size_t]: an unsigned integer. *)
Definition size_t := N.

(** Modelled from the spec: [util::ToVector<int64_t>] (the header
    [lazy_tensors/computation_client/util.h] is missing), the conversion of
    the dimension sizes to an ordered sequence: a fresh vector of the
    elements of [input], in order, each converted to [int64_t]. *)
Definition ToVector (input : list Z) : list int64_t := map to_int64 input.

(** Number of elements of a dense block with the given dimensions. *)
Definition product (dimensions : list Z) : Z := fold_right Z.mul 1 dimensions.

(** ** Outcomes and the monad of member functions *)

(** A call either returns a value or dies in a failed [CHECK]. *)
Inductive Result (A : Type) : Type :=
| Returned (a : A)
| Fatal.

Arguments Returned {A} a.
Arguments Fatal {A}.

(** A computation over a state [S]: the state is kept on both outcomes, so
    that what happened before an abort stays observable. *)
Definition Prog (S A : Type) : Type := S -> Result A * S.

Definition Prog_ret {S A : Type} (a : A) : Prog S A := fun st => (Returned a, st).

Definition Prog_bind {S A B : Type} (c : Prog S A) (k : A -> Prog S B) : Prog S B :=
  fun st =>
    match c st with
    | (Returned a, st') => k a st'
    | (Fatal, st') => (Fatal, st')
    end.

#[global] Instance Monad_Prog (S : Type) : Monad (Prog S) :=
  {| ret := @Prog_ret S; bind := @Prog_bind S |}.

Definition outcome {S A : Type} (r : Result A * S) : Result A := fst r.
Definition final {S A : Type} (r : Result A * S) : S := snd r.

Section Model.

(** [at::ScalarType], the element type tag: its enumerators are declared
    outside this translation unit, so the tag type is a parameter. *)
Variable ScalarType : Type.

(** Modelled from the spec: the class [Shape] (its header,
    [lazy_tensors/shape.h], is missing).  A shape descriptor carries an
    element scalar type and an ordered sequence of dimension sizes, whose
    length is the rank; a composite (tuple) shape is an aggregate of
    sub-shapes.  The literal only uses the accessors [IsTuple], [sizes] and
    [scalar_type]. *)
#[warnings="-register-all"]
Inductive Shape : Type :=
  MkShape {
      scalar_type : ScalarType;
      sizes : list int64_t;
      tuple_shapes : option (list Shape)
    }.

Definition IsTuple (s : Shape) : bool :=
  match tuple_shapes s with
  | Some _ => true
  | None => false
  end.

Definition rank (s : Shape) : nat := length (sizes s).

(** Modelled from the spec: [at::TensorOptions] (declared by the tensor
    library, missing here), the scalar type tag handed to the allocator.
    [at::TensorOptions options(scalar_type)] sets the dtype and nothing
    else. *)
Record TensorOptions : Type := MkTensorOptions { dtype : ScalarType }.

(** One element slot of a storage block, as the bit pattern it holds. *)
Definition Elem := Z.

(** Modelled from the spec: [at::Tensor] (declared by the tensor library,
    missing here), the storage block.  Default-constructed it is undefined;
    otherwise it is a densely packed block of elements of one scalar
    type. *)
Inductive Tensor : Type :=
| UndefinedTensor
| DenseTensor (elem_type : ScalarType) (dims : list int64_t) (data : list Elem).

Definition numel (t : Tensor) : nat :=
  match t with
  | UndefinedTensor => 0%nat
  | DenseTensor _ _ data => length data
  end.

(** The data members of [Literal]. *)
Record Literal : Type := MkLiteral { shape_ : Shape; value_ : Tensor }.

(** What the member functions do to the outside world. *)
Inductive Event : Type :=
| EvShapeUtilHash (s : Shape)
| EvAtEmpty (dimensions : list int64_t) (options : TensorOptions)
| EvCheckFailed.

Record Machine : Type :=
  MkMachine {
      this : Literal;          (* the receiver object *)
      trace : list Event;      (* oldest event first *)
      heap : nat -> Elem       (* what free memory happens to contain *)
    }.

Definition M (A : Type) : Type := Prog Machine A.

Definition emit (e : Event) (m : Machine) : Machine :=
  {| this := this m; trace := trace m ++ [e]; heap := heap m |}.

Definition set_this (l : Literal) (m : Machine) : Machine :=
  {| this := l; trace := trace m; heap := heap m |}.

(** Number of calls to the allocator recorded in a trace. *)
Fixpoint allocations (tr : list Event) : nat :=
  match tr with
  | [] => 0%nat
  | EvAtEmpty _ _ :: tr' => S (allocations tr')
  | _ :: tr' => allocations tr'
  end.

(** Number of calls to the hashing primitive recorded in a trace. *)
Fixpoint hash_calls (tr : list Event) : nat :=
  match tr with
  | [] => 0%nat
  | EvShapeUtilHash _ :: tr' => S (hash_calls tr')
  | _ :: tr' => hash_calls tr'
  end.

(** Modelled from the spec: the macro [CHECK] (its definition is missing),
    a fatal, unrecoverable assertion: a no-op when [cond] holds, an abort
    of the program otherwise. *)
Definition CHECK (cond : bool) : M unit :=
  fun m => if cond then (Returned tt, m) else (Fatal, emit EvCheckFailed m).

(** Reads and writes of the members of [*this]. *)
Definition read_shape_ : M Shape := fun m => (Returned (shape_ (this m)), m).

Definition init_members (shape : Shape) : M unit :=
  fun m => (Returned tt, set_this {| shape_ := shape; value_ := UndefinedTensor |} m).

Definition write_value_ (t : Tensor) : M unit :=
  fun m => (Returned tt, set_this {| shape_ := shape_ (this m); value_ := t |} m).

(** Modelled from the spec: the storage allocator [at::empty] (defined by
    the tensor library, missing here).  Given a sequence of dimension sizes
    and a scalar type tag it returns an uninitialized, densely packed
    block: element type and element count are determined by the inputs,
    the contents are whatever the memory held. *)
Definition at_empty (dimensions : list int64_t) (options : TensorOptions) : M Tensor :=
  fun m =>
    (Returned (DenseTensor (dtype options) dimensions
                 (map (heap m) (seq 0 (Z.to_nat (product dimensions))))),
     emit (EvAtEmpty dimensions options) m).

(** [ShapeUtil::Hash], the structural hashing primitive, is declared
    outside this translation unit: its value on a shape is a parameter. *)
Variable structural_hash : Shape -> size_t.

Definition ShapeUtil_Hash (s : Shape) : M size_t :=
  fun m => (Returned (structural_hash s), emit (EvShapeUtilHash s) m).

(** The fatal invariant violation: the run died, and the last thing it
    did was to fail a [CHECK]. *)
Definition invariant_violation {A : Type} (r : Result A * Machine) : Prop :=
  outcome r = Fatal /\ exists tr, trace (final r) = tr ++ [EvCheckFailed].

(** [[
    Literal::Literal(const Shape& shape) : shape_(shape) {
      CHECK(!shape_.IsTuple());
      std::vector<int64_t> dimensions = util::ToVector<int64_t>(shape.sizes());
      at::TensorOptions options(shape.scalar_type());
      value_ = at::empty(dimensions, options);
    }
    ]] *)
Definition Literal_Literal (shape : Shape) : M unit :=
  init_members shape ;;
  own <- read_shape_ ;;
  CHECK (negb (IsTuple own)) ;;
  let dimensions := ToVector (sizes shape) in
  let options := MkTensorOptions (scalar_type shape) in
  t <- at_empty dimensions options ;;
  write_value_ t.

(** [[
    const Shape& Literal::shape() const { return shape_; }
    ]] *)
Definition Literal_shape : M Shape := read_shape_.

(** [[
    size_t Literal::Hash() const {
      size_t hash_value = ShapeUtil::Hash(shape());
      CHECK(!shape().IsTuple());
      return hash_value;
    }
    ]] *)
Definition Literal_Hash : M size_t :=
  s <- Literal_shape ;;
  hash_value <- ShapeUtil_Hash s ;;
  s' <- Literal_shape ;;
  CHECK (negb (IsTuple s')) ;;
  ret hash_value.

(** *** Clients of a literal *)

(** A client of a constructed literal can only call its two accessors.  A
    run of a client is the sequence of the calls it makes, in order; it
    collects what each call returned. *)
Inductive Call : Type :=
| CallShape
| CallHash.

Inductive Answer : Type :=
| AnsShape (s : Shape)
| AnsHash (h : size_t).

Definition is_Hash_call (c : Call) : bool :=
  match c with
  | CallHash => true
  | CallShape => false
  end.

Definition call (c : Call) : M Answer :=
  match c with
  | CallShape => s <- Literal_shape ;; ret (AnsShape s)
  | CallHash => h <- Literal_Hash ;; ret (AnsHash h)
  end.

Fixpoint calls (cs : list Call) : M (list Answer) :=
  match cs with
  | [] => ret []
  | c :: cs' =>
      a <- call c ;;
      rest <- calls cs' ;;
      ret (a :: rest)
  end.

(** What a call answers on a literal of shape [s], when it returns. *)
Definition answer_on (s : Shape) (c : Call) : Answer :=
  match c with
  | CallShape => AnsShape s
  | CallHash => AnsHash (structural_hash s)
  end.

End Model.

(** ** A concrete instance, for running the model *)

Inductive ScalarTag : Type := kFloat | kLong | kBool.

Definition tag_code (t : ScalarTag) : N :=
  match t with
  | kFloat => 6
  | kLong => 4
  | kBool => 11
  end%N.

(** A sample structural hash: it folds the dimension sizes into the code of
    the scalar type, and tells tuples apart by their arity. *)
Definition sample_hash (s : Shape ScalarTag) : size_t :=
  let seed :=
    match tuple_shapes s with
    | Some elements => (1000 + N.of_nat (length elements))%N
    | None => tag_code (scalar_type s)
    end in
  fold_left (fun h d => ((h * 31 + Z.to_N (d mod 2 ^ 64)) mod 2 ^ 64)%N) (sizes s) seed.

(** The spec's scenario: a 1-D shape of size [4] of 32-bit floats. *)
Definition float4 : Shape ScalarTag := MkShape kFloat [4] None.

Definition long2x3 : Shape ScalarTag := MkShape kLong [2; 3] None.

Definition pair_shape : Shape ScalarTag :=
  MkShape kFloat [] (Some [float4; long2x3]).

(** A machine about to construct a literal: the receiver is raw. *)
Definition boot : Machine ScalarTag :=
  {| this := {| shape_ := MkShape kBool [] None; value_ := UndefinedTensor ScalarTag |};
     trace := [];
     heap := fun i => 7 * Z.of_nat i + 3 |}.

(** A literal that owns a tuple shape, as the constructor leaves it behind
    when it dies. *)
Definition tuple_machine : Machine ScalarTag :=
  {| this := {| shape_ := pair_shape; value_ := UndefinedTensor ScalarTag |};
     trace := [];
     heap := fun _ => 0 |}.

(** ** Properties *)

Unset Implicit Arguments.

Section Properties.

Variable ScalarType : Type.
Variable structural_hash : Shape ScalarType -> size_t.

(** *** Arithmetic of dimensions *)

Lemma to_int64_in_range (z : Z) :
  int64_min <= z <= int64_max -> to_int64 z = z.
Proof.
  unfold int64_min, int64_max, to_int64. intros Hz.
  rewrite Z.mod_small; lia.
Qed.

Lemma ToVector_in_range (l : list Z) :
  Forall (fun d => 0 <= d <= int64_max) l -> ToVector l = l.
Proof.
  induction 1 as [|d l Hd _ IH]; cbn.
  - reflexivity.
  - fold (ToVector l). rewrite IH, to_int64_in_range; [reflexivity|].
    unfold int64_min, int64_max in *. lia.
Qed.

Lemma product_nonneg (l : list Z) :
  Forall (fun d => 0 <= d <= int64_max) l -> 0 <= product l.
Proof.
  induction 1 as [|d l Hd _ IH]; cbn.
  - lia.
  - fold (product l). nia.
Qed.

Lemma allocations_app (tr1 tr2 : list (Event ScalarType)) :
  allocations (tr1 ++ tr2) = (allocations tr1 + allocations tr2)%nat.
Proof.
  induction tr1 as [|e tr1 IH]; cbn; [reflexivity|].
  destruct e; rewrite IH; reflexivity.
Qed.

Lemma hash_calls_app (tr1 tr2 : list (Event ScalarType)) :
  hash_calls (tr1 ++ tr2) = (hash_calls tr1 + hash_calls tr2)%nat.
Proof.
  induction tr1 as [|e tr1 IH]; cbn; [reflexivity|].
  destruct e; rewrite IH; reflexivity.
Qed.

(** *** The two paths of each member function *)

(** Once a run is dead, nothing that follows it runs. *)
Lemma bind_fatal (A B : Type) (c : M ScalarType A) (k : A -> M ScalarType B) (m : Machine ScalarType) :
  outcome (c m) = Fatal -> bind c k m = (Fatal, final (c m)).
Proof.
  cbn. unfold Prog_bind, outcome, final.
  destruct (c m) as [[a|] m']; cbn; [discriminate | reflexivity].
Qed.

Lemma bind_returned (A B : Type) (c : M ScalarType A) (k : A -> M ScalarType B)
      (m m' : Machine ScalarType) (a : A) :
  c m = (Returned a, m') -> bind c k m = k a m'.
Proof.
  cbn. unfold Prog_bind. intros ->. reflexivity.
Qed.

Lemma Literal_Literal_array (s : Shape ScalarType) (m : Machine ScalarType) :
  IsTuple s = false ->
  Literal_Literal s m =
    (Returned tt,
     {| this := {| shape_ := s;
                   value_ := DenseTensor (scalar_type s) (ToVector (sizes s))
                               (map (heap m)
                                  (seq 0 (Z.to_nat (product (ToVector (sizes s)))))) |};
        trace := trace m ++ [EvAtEmpty (ToVector (sizes s)) (MkTensorOptions (scalar_type s))];
        heap := heap m |}).
Proof.
  intros Hs. unfold Literal_Literal. cbn. unfold Prog_bind. cbn.
  unfold CHECK. cbn. rewrite Hs. reflexivity.
Qed.

Lemma Literal_Literal_tuple (s : Shape ScalarType) (m : Machine ScalarType) :
  IsTuple s = true ->
  Literal_Literal s m =
    (Fatal,
     {| this := {| shape_ := s; value_ := UndefinedTensor ScalarType |};
        trace := trace m ++ [EvCheckFailed ScalarType];
        heap := heap m |}).
Proof.
  intros Hs. unfold Literal_Literal. cbn. unfold Prog_bind. cbn.
  unfold CHECK. cbn. rewrite Hs. reflexivity.
Qed.

Lemma Literal_Hash_array (m : Machine ScalarType) :
  IsTuple (shape_ (this m)) = false ->
  Literal_Hash structural_hash m =
    (Returned (structural_hash (shape_ (this m))),
     emit (EvShapeUtilHash (shape_ (this m))) m).
Proof.
  intros Hs. unfold Literal_Hash. cbn. unfold Prog_bind. cbn.
  unfold CHECK. cbn. rewrite Hs. reflexivity.
Qed.

Lemma Literal_Hash_tuple (m : Machine ScalarType) :
  IsTuple (shape_ (this m)) = true ->
  Literal_Hash structural_hash m =
    (Fatal,
     emit (EvCheckFailed ScalarType) (emit (EvShapeUtilHash (shape_ (this m))) m)).
Proof.
  intros Hs. unfold Literal_Hash. cbn. unfold Prog_bind. cbn.
  unfold CHECK. cbn. rewrite Hs. reflexivity.
Qed.

(** A shape that is not a tuple is its scalar type and its sizes. *)
Lemma array_shape_ext (s1 s2 : Shape ScalarType) :
  IsTuple s1 = false -> IsTuple s2 = false ->
  sizes s1 = sizes s2 -> scalar_type s1 = scalar_type s2 ->
  s1 = s2.
Proof.
  destruct s1 as [t1 d1 [e1|]], s2 as [t2 d2 [e2|]]; cbn; try discriminate.
  intros _ _ -> ->. reflexivity.
Qed.

(** *** Construction *)

(** C1: for every shape [s] that is not a tuple, constructing a literal from
    [s] and then calling [shape()] returns [s]: the constructor stores the
    shape it is given, unchanged, in [shape_]. *)
Theorem construct_then_shape (s : Shape ScalarType) (m : Machine ScalarType) :
  IsTuple s = false ->
  outcome ((Literal_Literal s ;; Literal_shape (ScalarType := ScalarType)) m) = Returned s
  /\ shape_ (this (final (Literal_Literal s m))) = s.
Proof.
  intros Hs. split.
  - rewrite (bind_returned _ _ _ _ _ _ _ (Literal_Literal_array s m Hs)). reflexivity.
  - rewrite (Literal_Literal_array s m Hs). reflexivity.
Qed.

(** C3: constructing from a tuple shape is a fatal invariant violation: the
    run dies in the failed [CHECK], no value is returned and nothing that
    follows the constructor runs.  From every shape that is not a tuple the
    guard passes and the constructor returns. *)
Theorem construct_guard (s : Shape ScalarType) (m : Machine ScalarType) :
  if IsTuple s
  then invariant_violation (Literal_Literal s m)
       /\ forall (B : Type) (k : unit -> M ScalarType B),
           bind (Literal_Literal s) k m = (Fatal, final (Literal_Literal s m))
  else outcome (Literal_Literal s m) = Returned tt.
Proof.
  destruct (IsTuple s) eqn:Hs.
  - assert (Hdead : invariant_violation (Literal_Literal s m)).
    { rewrite (Literal_Literal_tuple _ m Hs). split; [reflexivity|].
      exists (trace m). reflexivity. }
    split; [exact Hdead|].
    intros B k. apply bind_fatal. exact (proj1 Hdead).
  - rewrite (Literal_Literal_array s m Hs). reflexivity.
Qed.

(** C5: for every shape [s] that is not a tuple (its sizes being
    non-negative [int64_t] values), the constructor calls the allocator
    exactly once, with the sizes of [s] in their order and the scalar type
    of [s]; the block it stores has that element type, as many elements as
    the product of the sizes, and contents it never wrote. *)
Theorem construct_allocates (s : Shape ScalarType) (m : Machine ScalarType) :
  IsTuple s = false ->
  Forall (fun d => 0 <= d <= int64_max) (sizes s) ->
  let m' := final (Literal_Literal s m) in
  trace m' = trace m ++ [EvAtEmpty (sizes s) (MkTensorOptions (scalar_type s))]
  /\ allocations (trace m') = S (allocations (trace m))
  /\ exists data,
      value_ (this m') = DenseTensor (scalar_type s) (sizes s) data
      /\ Z.of_nat (numel (value_ (this m'))) = product (sizes s)
      /\ data = map (heap m) (seq 0 (length data)).
Proof.
  intros Hs Hsizes m'. subst m'.
  rewrite (Literal_Literal_array s m Hs), (ToVector_in_range _ Hsizes).
  unfold final. cbn [snd this trace value_ numel].
  split; [reflexivity|]. split.
  - rewrite allocations_app. cbn. lia.
  - eexists. split; [reflexivity|].
    rewrite length_map, length_seq. split; [|reflexivity].
    apply Z2Nat.id, product_nonneg, Hsizes.
Qed.

(** C9: given a tuple shape, the constructor dies before it reaches the
    allocator: the only event of the run is the failed [CHECK], no call to
    [at::empty] is recorded, the memory is untouched, and the receiver holds
    the copied shape and a tensor that is still undefined. *)
Theorem construct_tuple_no_allocation (s : Shape ScalarType) (m : Machine ScalarType) :
  IsTuple s = true ->
  let r := Literal_Literal s m in
  outcome r = Fatal
  /\ trace (final r) = trace m ++ [EvCheckFailed ScalarType]
  /\ allocations (trace (final r)) = allocations (trace m)
  /\ heap (final r) = heap m
  /\ this (final r) = {| shape_ := s; value_ := UndefinedTensor ScalarType |}.
Proof.
  intros Hs r. subst r. rewrite (Literal_Literal_tuple _ m Hs).
  unfold outcome, final. cbn [fst snd this trace heap].
  repeat split. rewrite allocations_app. cbn. lia.
Qed.

(** *** The hash *)

(** C4: [Hash()] on a literal whose shape is a tuple is the same fatal
    invariant violation as constructing from that shape: it dies in a failed
    [CHECK] and never returns.  On every literal whose shape is not a tuple
    it returns a value. *)
Theorem hash_guard (m : Machine ScalarType) :
  if IsTuple (shape_ (this m))
  then invariant_violation (Literal_Hash structural_hash m)
       /\ invariant_violation (Literal_Literal (shape_ (this m)) m)
       /\ forall (B : Type) (k : size_t -> M ScalarType B),
           bind (Literal_Hash structural_hash) k m
           = (Fatal, final (Literal_Hash structural_hash m))
  else exists h : size_t, outcome (Literal_Hash structural_hash m) = Returned h.
Proof.
  destruct (IsTuple (shape_ (this m))) eqn:Hs.
  - assert (Hdead : invariant_violation (Literal_Hash structural_hash m)).
    { rewrite (Literal_Hash_tuple m Hs). split; [reflexivity|].
      exists (trace m ++ [EvShapeUtilHash (shape_ (this m))]). reflexivity. }
    split; [exact Hdead|]. split.
    + rewrite (Literal_Literal_tuple _ m Hs). split; [reflexivity|].
      exists (trace m). reflexivity.
    + intros B k. apply bind_fatal. exact (proj1 Hdead).
  - rewrite (Literal_Hash_array m Hs). eexists. reflexivity.
Qed.

(** C8: on every literal whose shape is not a tuple, [Hash()] is the
    hashing primitive applied to what [shape()] returns, and nothing more:
    same result, same final state as [ShapeUtil::Hash(shape())] alone. *)
Theorem hash_is_ShapeUtil_Hash (m : Machine ScalarType) :
  IsTuple (shape_ (this m)) = false ->
  Literal_Hash structural_hash m
  = (s <- Literal_shape (ScalarType := ScalarType) ;; ShapeUtil_Hash structural_hash s) m
  /\ outcome (Literal_Hash structural_hash m)
     = Returned (structural_hash (shape_ (this m))).
Proof.
  intros Hs. rewrite (Literal_Hash_array m Hs).
  split; reflexivity.
Qed.

(** C10: in [Hash()] the hash is computed first and the guard comes second:
    on a literal whose shape is a tuple, the hashing primitive is called on
    that tuple shape, and only then does the [CHECK] fail. *)
Theorem hash_computed_before_guard (m : Machine ScalarType) :
  IsTuple (shape_ (this m)) = true ->
  let r := Literal_Hash structural_hash m in
  outcome r = Fatal
  /\ trace (final r)
     = trace m ++ [EvShapeUtilHash (shape_ (this m)); EvCheckFailed ScalarType]
  /\ hash_calls (trace (final r)) = S (hash_calls (trace m)).
Proof.
  intros Hs r. subst r. rewrite (Literal_Hash_tuple m Hs).
  unfold outcome, final, emit. cbn [fst snd this trace heap].
  rewrite <- app_assoc. cbn [app].
  repeat split. rewrite hash_calls_app. cbn. lia.
Qed.

(** C2: two shapes that are not tuples and agree in rank, dimension sizes
    and scalar type give literals with the same hash: [Hash()] returns on
    both, with one value, whatever the machines they were built on hold and
    whatever is stored in the literals' blocks. *)
Theorem hash_of_equal_descriptors
        (s1 s2 : Shape ScalarType) (m1 m2 : Machine ScalarType) :
  IsTuple s1 = false -> IsTuple s2 = false ->
  rank s1 = rank s2 -> sizes s1 = sizes s2 -> scalar_type s1 = scalar_type s2 ->
  (exists h : size_t,
      outcome ((Literal_Literal s1 ;; Literal_Hash structural_hash) m1) = Returned h
      /\ outcome ((Literal_Literal s2 ;; Literal_Hash structural_hash) m2) = Returned h)
  /\ forall t1 t2 : Tensor ScalarType,
      outcome (Literal_Hash structural_hash
                 (set_this {| shape_ := s1; value_ := t1 |} m1))
      = outcome (Literal_Hash structural_hash
                   (set_this {| shape_ := s2; value_ := t2 |} m2)).
Proof.
  intros H1 H2 _ Hsizes Htype.
  assert (s1 = s2) as <- by (apply array_shape_ext; assumption).
  split.
  - exists (structural_hash s1).
    rewrite (bind_returned _ _ _ _ _ _ _ (Literal_Literal_array s1 m1 H1)).
    rewrite (bind_returned _ _ _ _ _ _ _ (Literal_Literal_array s1 m2 H1)).
    rewrite !Literal_Hash_array by exact H1. split; reflexivity.
  - intros t1 t2. rewrite !Literal_Hash_array by exact H1. reflexivity.
Qed.

(** C6: on a literal whose shape is not a tuple [Hash()] is deterministic:
    two calls in a row return the same unsigned integer, and so does a call
    on any machine whose literal has the same shape, whatever its storage
    block, its memory and its history are. *)
Theorem hash_deterministic (m : Machine ScalarType) :
  IsTuple (shape_ (this m)) = false ->
  (exists h : size_t,
      outcome ((h1 <- Literal_Hash structural_hash ;;
                h2 <- Literal_Hash structural_hash ;;
                ret (h1, h2)) m) = Returned (h, h))
  /\ forall (t : Tensor ScalarType) (tr : list (Event ScalarType)) (mem : nat -> Elem),
      outcome (Literal_Hash structural_hash
                 {| this := {| shape_ := shape_ (this m); value_ := t |};
                    trace := tr; heap := mem |})
      = outcome (Literal_Hash structural_hash m).
Proof.
  intros Hs. split.
  - exists (structural_hash (shape_ (this m))).
    rewrite (bind_returned _ _ _ _ _ _ _ (Literal_Hash_array m Hs)).
    rewrite (bind_returned _ _ _ _ _ _ _
               (Literal_Hash_array (emit (EvShapeUtilHash (shape_ (this m))) m) Hs)).
    reflexivity.
  - intros t tr mem. rewrite !Literal_Hash_array by exact Hs. reflexivity.
Qed.

(** C7: the accessors leave the literal alone.  [shape()] changes nothing at
    all; after [Hash()], whether it returned or died, the shape and the
    storage block of the receiver, and the memory, are what they were. *)
Theorem accessors_frame (m : Machine ScalarType) :
  final (Literal_shape m) = m
  /\ outcome (Literal_shape m) = Returned (shape_ (this m))
  /\ shape_ (this (final (Literal_Hash structural_hash m))) = shape_ (this m)
  /\ value_ (this (final (Literal_Hash structural_hash m))) = value_ (this m)
  /\ heap (final (Literal_Hash structural_hash m)) = heap m.
Proof.
  split; [reflexivity|]. split; [reflexivity|].
  destruct (IsTuple (shape_ (this m))) eqn:Hs.
  - rewrite (Literal_Hash_tuple m Hs). repeat split.
  - rewrite (Literal_Hash_array m Hs). repeat split.
Qed.

(** *** Beyond the single call *)

Lemma bind_run (A B : Type) (c : M ScalarType A) (k : A -> M ScalarType B)
      (m : Machine ScalarType) :
  bind c k m
  = match c m with
    | (Returned a, m') => k a m'
    | (Fatal, m') => (Fatal, m')
    end.
Proof. reflexivity. Qed.

(** X1: construct-then-hash, for every shape.  From a tuple shape the run
    dies in the constructor, so [Hash()] is not entered and the hashing
    primitive is never applied to the tuple.  From any other shape the run
    returns the hash of the given shape after exactly one allocation
    followed by exactly one call of the hashing primitive. *)
Theorem construct_then_hash (s : Shape ScalarType) (m : Machine ScalarType) :
  let r := (Literal_Literal s ;; Literal_Hash structural_hash) m in
  if IsTuple s
  then outcome r = Fatal
       /\ trace (final r) = trace m ++ [EvCheckFailed ScalarType]
       /\ hash_calls (trace (final r)) = hash_calls (trace m)
  else outcome r = Returned (structural_hash s)
       /\ trace (final r)
          = trace m ++ [EvAtEmpty (ToVector (sizes s)) (MkTensorOptions (scalar_type s));
                        EvShapeUtilHash s]
       /\ shape_ (this (final r)) = s.
Proof.
  intros r. subst r. destruct (IsTuple s) eqn:Hs.
  - rewrite bind_fatal by (rewrite (Literal_Literal_tuple s m Hs); reflexivity).
    rewrite (Literal_Literal_tuple s m Hs).
    unfold outcome, final. cbn [fst snd trace].
    repeat split. rewrite hash_calls_app. cbn. lia.
  - rewrite (bind_returned _ _ _ _ _ _ _ (Literal_Literal_array s m Hs)).
    rewrite Literal_Hash_array by exact Hs.
    unfold outcome, final, emit. cbn [fst snd this trace shape_].
    rewrite <- app_assoc. repeat split.
Qed.

(** X2: the member functions keep to their own collaborator, on every path:
    neither accessor ever calls the allocator, and the constructor never
    calls the hashing primitive. *)
Theorem no_foreign_calls (s : Shape ScalarType) (m : Machine ScalarType) :
  allocations (trace (final (Literal_Hash structural_hash m))) = allocations (trace m)
  /\ allocations (trace (final (Literal_shape m))) = allocations (trace m)
  /\ hash_calls (trace (final (Literal_Literal s m))) = hash_calls (trace m).
Proof.
  split; [|split].
  - destruct (IsTuple (shape_ (this m))) eqn:Hs.
    + rewrite (Literal_Hash_tuple m Hs). unfold final, emit. cbn [snd trace].
      rewrite !allocations_app. cbn. lia.
    + rewrite (Literal_Hash_array m Hs). unfold final, emit. cbn [snd trace].
      rewrite allocations_app. cbn. lia.
  - reflexivity.
  - destruct (IsTuple s) eqn:Hs.
    + rewrite (Literal_Literal_tuple s m Hs). unfold final. cbn [snd trace].
      rewrite hash_calls_app. cbn. lia.
    + rewrite (Literal_Literal_array s m Hs). unfold final. cbn [snd trace].
      rewrite hash_calls_app. cbn. lia.
Qed.


(** X4: on a literal whose shape is not a tuple, no sequence of accessor
    calls dies or changes the literal: every [shape()] answers the owned
    shape, every [Hash()] answers its hash, the receiver and the memory end
    as they began, nothing is allocated, and the hashing primitive has been
    called once per [Hash()]. *)
Theorem calls_on_array (cs : list Call) (m : Machine ScalarType) :
  IsTuple (shape_ (this m)) = false ->
  exists m' : Machine ScalarType,
    calls structural_hash cs m
    = (Returned (map (answer_on structural_hash (shape_ (this m))) cs), m')
    /\ this m' = this m
    /\ heap m' = heap m
    /\ allocations (trace m') = allocations (trace m)
    /\ hash_calls (trace m')
       = (hash_calls (trace m) + length (filter is_Hash_call cs))%nat.
Proof.
  revert m. induction cs as [|c cs IH]; intros m Hs.
  - exists m. cbn. repeat split. lia.
  - cbn [calls]. rewrite bind_run. destruct c.
    + (* shape() *)
      destruct (IH m Hs) as (m' & Hrun & Hthis & Hheap & Hal & Hhc).
      exists m'. cbn. unfold Prog_bind. cbn. rewrite Hrun. cbn.
      repeat split; assumption.
    + (* Hash() *)
      cbn [call]. rewrite bind_run, (Literal_Hash_array m Hs).
      cbn [Prog_ret ret Monad_Prog]. rewrite bind_run.
      set (m1 := emit (EvShapeUtilHash (shape_ (this m))) m).
      destruct (IH m1 Hs) as (m' & Hrun & Hthis & Hheap & Hal & Hhc).
      exists m'. rewrite Hrun. cbn [map answer_on filter is_Hash_call length].
      split; [reflexivity|]. split; [exact Hthis|]. split; [exact Hheap|].
      subst m1. cbn [emit trace] in Hal, Hhc.
      rewrite allocations_app in Hal. rewrite hash_calls_app in Hhc.
      cbn in Hal, Hhc. split; lia.
Qed.

(** X5: on a literal whose shape is a tuple, [shape()] still answers, and a
    sequence of accessor calls dies exactly when it contains a [Hash()];
    the hashing primitive has then been applied once, by the call that
    died.  The receiver is left as it was. *)
Theorem calls_on_tuple (cs : list Call) (m : Machine ScalarType) :
  IsTuple (shape_ (this m)) = true ->
  let r := calls structural_hash cs m in
  outcome r
  = (if existsb is_Hash_call cs
     then Fatal
     else Returned (map (fun _ => AnsShape (shape_ (this m))) cs))
  /\ this (final r) = this m
  /\ hash_calls (trace (final r))
     = (hash_calls (trace m) + if existsb is_Hash_call cs then 1 else 0)%nat.
Proof.
  intros Hs. cbv zeta. induction cs as [|c cs IH].
  - cbn. repeat split. lia.
  - cbn [calls]. rewrite bind_run. destruct c.
    + (* shape() *)
      cbn [existsb is_Hash_call orb map].
      destruct IH as (Hout & Hthis & Hhc).
      cbn. unfold Prog_bind. cbn.
      destruct (calls structural_hash cs m) as [[rest|] mf];
        unfold outcome, final in *; cbn [fst snd] in *.
      * destruct (existsb is_Hash_call cs); [discriminate|].
        injection Hout as ->. repeat split; assumption.
      * destruct (existsb is_Hash_call cs); [|discriminate].
        repeat split; assumption.
    + (* Hash() *)
      cbn [call existsb is_Hash_call orb]. rewrite bind_run, (Literal_Hash_tuple m Hs).
      unfold outcome, final, emit. cbn [fst snd this trace].
      repeat split. rewrite !hash_calls_app. cbn. lia.
Qed.

End Properties.

(** ** The theorems at work on the concrete instance *)

Lemma construct_then_shape_float4 :
  IsTuple float4 = false
  /\ outcome ((Literal_Literal float4 ;; Literal_shape (ScalarType := ScalarTag)) boot)
     = Returned float4
  /\ shape_ (this (final (Literal_Literal float4 boot))) = float4.
Proof.
  split; [reflexivity|].
  exact (construct_then_shape ScalarTag float4 boot eq_refl).
Defined.

Lemma construct_allocates_float4 :
  IsTuple float4 = false
  /\ Forall (fun d => 0 <= d <= int64_max) (sizes float4)
  /\ trace (final (Literal_Literal float4 boot)) = [EvAtEmpty [4] (MkTensorOptions kFloat)]
  /\ allocations (trace (final (Literal_Literal float4 boot))) = 1%nat
  /\ exists data,
      value_ (this (final (Literal_Literal float4 boot))) = DenseTensor kFloat [4] data
      /\ Z.of_nat (numel (value_ (this (final (Literal_Literal float4 boot))))) = 4
      /\ data = map (heap boot) (seq 0 (length data)).
Proof.
  assert (Hsizes : Forall (fun d => 0 <= d <= int64_max) (sizes float4))
    by (repeat constructor; unfold int64_max; lia).
  split; [reflexivity|]. split; [exact Hsizes|].
  exact (construct_allocates ScalarTag float4 boot eq_refl Hsizes).
Defined.

Lemma construct_tuple_no_allocation_pair :
  IsTuple pair_shape = true
  /\ outcome (Literal_Literal pair_shape boot) = Fatal
  /\ trace (final (Literal_Literal pair_shape boot)) = [EvCheckFailed ScalarTag]
  /\ allocations (trace (final (Literal_Literal pair_shape boot))) = 0%nat
  /\ heap (final (Literal_Literal pair_shape boot)) = heap boot
  /\ this (final (Literal_Literal pair_shape boot))
     = {| shape_ := pair_shape; value_ := UndefinedTensor ScalarTag |}.
Proof.
  split; [reflexivity|].
  exact (construct_tuple_no_allocation ScalarTag pair_shape boot eq_refl).
Defined.

Lemma hash_is_ShapeUtil_Hash_float4 :
  let m := final (Literal_Literal float4 boot) in
  IsTuple (shape_ (this m)) = false
  /\ Literal_Hash sample_hash m
     = (s <- Literal_shape (ScalarType := ScalarTag) ;; ShapeUtil_Hash sample_hash s) m
  /\ outcome (Literal_Hash sample_hash m) = Returned (sample_hash float4).
Proof.
  split; [reflexivity|].
  exact (hash_is_ShapeUtil_Hash ScalarTag sample_hash
           (final (Literal_Literal float4 boot)) eq_refl).
Defined.

Lemma hash_computed_before_guard_pair :
  IsTuple (shape_ (this tuple_machine)) = true
  /\ outcome (Literal_Hash sample_hash tuple_machine) = Fatal
  /\ trace (final (Literal_Hash sample_hash tuple_machine))
     = [EvShapeUtilHash pair_shape; EvCheckFailed ScalarTag]
  /\ hash_calls (trace (final (Literal_Hash sample_hash tuple_machine))) = 1%nat.
Proof.
  split; [reflexivity|].
  exact (hash_computed_before_guard ScalarTag sample_hash tuple_machine eq_refl).
Defined.

Lemma hash_of_equal_descriptors_float4 :
  let s2 : Shape ScalarTag := MkShape kFloat [4] None in
  IsTuple float4 = false /\ IsTuple s2 = false
  /\ rank float4 = rank s2 /\ sizes float4 = sizes s2
  /\ scalar_type float4 = scalar_type s2
  /\ (exists h : size_t,
         outcome ((Literal_Literal float4 ;; Literal_Hash sample_hash) boot) = Returned h
         /\ outcome ((Literal_Literal s2 ;; Literal_Hash sample_hash) tuple_machine)
            = Returned h)
  /\ forall t1 t2 : Tensor ScalarTag,
      outcome (Literal_Hash sample_hash
                 (set_this {| shape_ := float4; value_ := t1 |} boot))
      = outcome (Literal_Hash sample_hash
                   (set_this {| shape_ := s2; value_ := t2 |} tuple_machine)).
Proof.
  intros s2. repeat (split; [reflexivity|]).
  exact (hash_of_equal_descriptors ScalarTag sample_hash float4 s2 boot tuple_machine
           eq_refl eq_refl eq_refl eq_refl eq_refl).
Defined.

Lemma hash_deterministic_float4 :
  let m := final (Literal_Literal float4 boot) in
  IsTuple (shape_ (this m)) = false
  /\ (exists h : size_t,
         outcome ((h1 <- Literal_Hash sample_hash ;;
                   h2 <- Literal_Hash sample_hash ;;
                   ret (h1, h2)) m) = Returned (h, h))
  /\ forall (t : Tensor ScalarTag) (tr : list (Event ScalarTag)) (mem : nat -> Elem),
      outcome (Literal_Hash sample_hash
                 {| this := {| shape_ := float4; value_ := t |}; trace := tr; heap := mem |})
      = outcome (Literal_Hash sample_hash m).
Proof.
  intros m. split; [reflexivity|].
  exact (hash_deterministic ScalarTag sample_hash m eq_refl).
Defined.

Lemma calls_on_array_float4 :
  let m := final (Literal_Literal float4 boot) in
  let cs := [CallHash; CallShape; CallHash] in
  IsTuple (shape_ (this m)) = false
  /\ exists m' : Machine ScalarTag,
      calls sample_hash cs m
      = (Returned (map (answer_on sample_hash (shape_ (this m))) cs), m')
      /\ this m' = this m
      /\ heap m' = heap m
      /\ allocations (trace m') = allocations (trace m)
      /\ hash_calls (trace m')
         = (hash_calls (trace m) + length (filter is_Hash_call cs))%nat.
Proof.
  intros m cs. split; [reflexivity|].
  exact (calls_on_array ScalarTag sample_hash cs m eq_refl).
Defined.

Lemma calls_on_tuple_pair :
  let cs := [CallShape; CallHash; CallShape] in
  let r := calls sample_hash cs tuple_machine in
  IsTuple (shape_ (this tuple_machine)) = true
  /\ outcome r
     = (if existsb is_Hash_call cs
        then Fatal
        else Returned (map (fun _ => AnsShape (shape_ (this tuple_machine))) cs))
  /\ this (final r) = this tuple_machine
  /\ hash_calls (trace (final r))
     = (hash_calls (trace tuple_machine)
        + if existsb is_Hash_call cs then 1 else 0)%nat.
Proof.
  intros cs r. split; [reflexivity|].
  exact (calls_on_tuple ScalarTag sample_hash cs tuple_machine eq_refl).
Defined.
